(** * sotaog_public_api_client: the API client, embedded and verified

    A shallow embedding of [sotaog_public_api_client/__init__.py].

    - Python values that travel through the client (parsed JSON bodies,
      query parameters, JSON payloads) are the inductive [pyval]; a Python
      [dict] with string keys is a [gmap string _].
    - Every method of [Client] performs exactly one call on its
      [requests.Session]. A method is embedded as a term of the free monad
      [io]: it returns, raises, or issues a request and continues with the
      response. [run] executes such a term against a server and records the
      requests that were sent.
    - Calls to [logger] write to the log only and are left out, except that
      the evaluation of their argument is kept where it can raise
      ([result.json()] in [get_datapoints] and [post_datapoints]).
    - Arguments have the types of their annotations: [str = None] is an
      [option string], [int = None] an [option Z], [[str]] a [list string];
      identifiers, which the code formats into the URL, are strings;
      [group_by], [asset_datatypes] and [datapoints] are any value.
    - Failures of the transport itself (no response at all) are outside the
      model: the client does not catch them. *)

From stdpp Require Import gmap strings list fin_maps.

Open Scope Z_scope.
Open Scope string_scope.

(** ** Python values *)

(** The values [json.loads] produces, which are also the values the client
    sends. [PFloat m e] is the number [m * 10^e]. *)
#[warnings="-register-all"]
Inductive pyval : Type :=
| PNone
| PBool (b : bool)
| PInt (n : Z)
| PFloat (m e : Z)
| PStr (s : string)
| PList (l : list pyval)
| PDict (d : gmap string pyval).

(** The exceptions that can leave the client. [Client_Exception] is the
    class declared by the module; the others are Python's own.
    [JSONDecodeError] is what [Response.json()] raises on a body that is not
    JSON. *)
Inductive exn : Type :=
| Client_Exception (msg : string)
| Exception (msg : string)
| KeyError (key : string)
| TypeError
| JSONDecodeError.

Inductive outcome (A : Type) : Type :=
| Returned (a : A)
| Raised (e : exn).
Arguments Returned {A} a.
Arguments Raised {A} e.

(** Python's truth value testing, [if x:]. *)
Class Truthy (A : Type) := truthy : A → bool.

#[global] Instance truthy_string : Truthy string :=
  λ s, match s with EmptyString => false | String _ _ => true end.
#[global] Instance truthy_Z : Truthy Z :=
  λ n, negb (n =? 0)%Z.
#[global] Instance truthy_list {A} : Truthy (list A) :=
  λ l, match l with [] => false | _ :: _ => true end.
#[global] Instance truthy_option {A} `{Truthy A} : Truthy (option A) :=
  λ o, match o with None => false | Some a => truthy a end.
#[global] Instance truthy_pyval : Truthy pyval :=
  λ v, match v with
       | PNone => false
       | PBool b => b
       | PInt n => truthy n
       | PFloat m _ => truthy m
       | PStr s => truthy s
       | PList l => truthy l
       | PDict d => negb (bool_decide (d = ∅))
       end.

(** Conversion of typed arguments to the Python value they are. *)
Class ToPy (A : Type) := to_py : A → pyval.

#[global] Instance to_py_string : ToPy string := PStr.
#[global] Instance to_py_Z : ToPy Z := PInt.
#[global] Instance to_py_list {A} `{ToPy A} : ToPy (list A) :=
  λ l, PList (to_py <$> l).
#[global] Instance to_py_option {A} `{ToPy A} : ToPy (option A) :=
  λ o, match o with None => PNone | Some a => to_py a end.

#[global] Instance outcome_ret : MRet outcome := @Returned.
#[global] Instance outcome_bind : MBind outcome :=
  λ A B f m, match m with Returned a => f a | Raised e => Raised e end.

(** ** Operations of the Python data model used by the client *)

Fixpoint mem_char (c : Ascii.ascii) (chars : string) : bool :=
  match chars with
  | EmptyString => false
  | String c' chars' => if Ascii.eqb c c' then true else mem_char c chars'
  end.

(** [s.rstrip(chars)]: [s] without its longest suffix made of characters
    of [chars]. *)
Fixpoint rstrip (chars s : string) : string :=
  match s with
  | EmptyString => EmptyString
  | String c s' =>
      match rstrip chars s' with
      | EmptyString => if mem_char c chars then EmptyString else String c EmptyString
      | r => String c r
      end
  end.

(** [needle in hay] on two strings: substring test. *)
Definition is_substring (needle hay : string) : bool :=
  match String.index 0 needle hay with Some _ => true | None => false end.

(** [v == s] for a string [s]: a value of another type is never equal to a
    string. *)
Definition py_eq_str (v : pyval) (s : string) : bool :=
  match v with
  | PStr s' => String.eqb s' s
  | _ => false
  end.

(** [v[key]] for a string key. *)
Definition py_getitem (v : pyval) (key : string) : outcome pyval :=
  match v with
  | PDict d => match d !! key with
               | Some x => Returned x
               | None => Raised (KeyError key)
               end
  | _ => Raised TypeError
  end.

(** [s in v] for a string [s]: membership in a list, key of a dict,
    substring of a string; the other values are not containers. *)
Definition py_contains (s : string) (v : pyval) : outcome bool :=
  match v with
  | PList l => Returned (existsb (λ x, py_eq_str x s) l)
  | PDict d => Returned (bool_decide (is_Some (d !! s)))
  | PStr hay => Returned (is_substring s hay)
  | _ => Raised TypeError
  end.

Fixpoint chars_of (s : string) : list pyval :=
  match s with
  | EmptyString => []
  | String c s' => PStr (String c EmptyString) :: chars_of s'
  end.

(** [for x in v]: the elements a value is iterated over. A dict yields its
    keys; the order in which [gmap] lists them need not be Python's
    insertion order, and the client iterates a parsed body only in its
    filters, where every key of a dict is either dropped or raises. *)
Definition py_iter (v : pyval) : outcome (list pyval) :=
  match v with
  | PList l => Returned l
  | PDict d => Returned (PStr <$> (map_to_list d).*1)
  | PStr s => Returned (chars_of s)
  | _ => Raised TypeError
  end.

(** [[x for x in l if cond(x)]]: the elements are tested in order and the
    first condition that raises ends the comprehension. *)
Fixpoint comprehension (cond : pyval → outcome bool) (l : list pyval)
  : outcome (list pyval) :=
  match l with
  | [] => Returned []
  | x :: l' =>
      b ← cond x;
      r ← comprehension cond l';
      Returned (if b : bool then x :: r else r)
  end.

(** [[x for x in v if cond(x)]] on a value [v]. *)
Definition list_comprehension (cond : pyval → outcome bool) (v : pyval)
  : outcome pyval :=
  items ← py_iter v;
  kept ← comprehension cond items;
  Returned (PList kept).

(** ** HTTP through [requests.Session] *)

Inductive http_method : Type := GET | POST.

(** What one call of [session.get] or [session.post] is given. A keyword
    argument that is not passed is [None]. *)
Record request : Type := {
  req_method : http_method;
  req_url : string;
  req_headers : option (gmap string string);
  req_params : option (gmap string pyval);
  req_data : option (gmap string string);
  req_json : option pyval;
  req_auth : option (string * string)
}.

(** A response: its status code and what [json()] parses the body to,
    [None] when the body is not JSON. *)
Record response : Type := {
  status_code : Z;
  body : option pyval
}.

Inductive io (A : Type) : Type :=
| Return (a : A)
| Raise (e : exn)
| Request (r : request) (k : response → io A).
Arguments Return {A} a.
Arguments Raise {A} e.
Arguments Request {A} r k.

Fixpoint io_bind {A B} (f : A → io B) (m : io A) : io B :=
  match m with
  | Return a => f a
  | Raise e => Raise e
  | Request r k => Request r (λ resp, io_bind f (k resp))
  end.

#[global] Instance io_mret : MRet io := @Return.
#[global] Instance io_mbind : MBind io := @io_bind.

Definition lift {A} (o : outcome A) : io A :=
  match o with Returned a => Return a | Raised e => Raise e end.

(** Running a method against a server: the requests sent, in order, and how
    the method ended. *)
Fixpoint run {A} (srv : request → response) (m : io A)
  : list request * outcome A :=
  match m with
  | Return a => ([], Returned a)
  | Raise e => ([], Raised e)
  | Request r k => let rest := run srv (k (srv r)) in (r :: rest.1, rest.2)
  end.

Definition sent {A} (srv : request → response) (m : io A) : list request :=
  (run srv m).1.
Definition result_of {A} (srv : request → response) (m : io A) : outcome A :=
  (run srv m).2.

Definition session_get (url : string) (headers : gmap string string)
  (params : option (gmap string pyval)) : io response :=
  Request {| req_method := GET; req_url := url; req_headers := Some headers;
             req_params := params; req_data := None; req_json := None;
             req_auth := None |} Return.

Definition session_post (url : string) (headers : option (gmap string string))
  (data : option (gmap string string)) (json : option pyval)
  (auth : option (string * string)) : io response :=
  Request {| req_method := POST; req_url := url; req_headers := headers;
             req_params := None; req_data := data; req_json := json;
             req_auth := auth |} Return.

(** [result.json()] *)
Definition json (result : response) : io pyval :=
  match body result with
  | Some v => Return v
  | None => Raise JSONDecodeError
  end.

(** ** The client *)

(** The attributes [__init__] sets, besides the session. *)
Record Client : Type := {
  url : string;
  customer_id : option string;
  token : pyval
}.

(** [v == x] for an argument [x] that is a string or [None]. *)
Definition py_eq (v : pyval) (x : option string) : bool :=
  match x with
  | Some s => py_eq_str v s
  | None => match v with PNone => true | _ => false end
  end.

(** [x in v] for an argument [x] that is a string or [None]. *)
Definition py_in (x : option string) (v : pyval) : outcome bool :=
  match x with
  | Some s => py_contains s v
  | None =>
      match v with
      | PList l => Returned (existsb (λ e, py_eq e None) l)
      | PDict _ => Returned false
      | _ => Raised TypeError
      end
  end.

(** An optional argument at a call site: left out, so that the default of
    the signature applies, or passed. *)
Inductive arg (A : Type) : Type :=
| Omitted
| Passed (a : A).
Arguments Omitted {A}.
Arguments Passed {A} a.

Definition or_default {A} (d : A) (a : arg A) : A :=
  match a with Omitted => d | Passed x => x end.

(** A call of a public method, with the arguments the caller wrote. *)
Inductive call : Type :=
| call_get_alarm_services
| call_get_alarm_service (alarm_service_id : string)
| call_get_alarms
| call_get_alarm (asset_id : string) (datatype : arg (option string))
| call_get_facilities
| call_get_facility (facility_id : string)
| call_get_asset (asset_id : string) (type : arg string)
| call_get_assets (type : arg string) (facility asset_type : arg (option string))
| call_get_datatypes (group_by : arg pyval)
| call_get_datatype (datatype_id : string)
| call_get_datapoints (asset_datatypes : pyval) (start_ts end_ts : arg (option Z))
    (sort : arg string) (limit : arg Z)
| call_get_asset_datapoints (asset_id : string) (datatypes : arg (list string))
    (start_ts end_ts : arg (option Z)) (sort : arg string) (limit : arg Z)
| call_get_swd_networks (facility : arg (option string))
| call_get_truck_tickets (facility type : arg (option string))
    (start_ts end_ts : arg (option Z))
| call_post_datapoints (asset_id : string) (datapoints : pyval).

Section Methods.

(** Python's [str()] of a number or a container, as string formatting
    applies it; left open. A string is formatted as itself, and [None],
    [True] and [False] as their names. *)
Variable py_str : pyval → string.

Definition format (v : pyval) : string :=
  match v with
  | PStr s => s
  | PNone => "None"
  | PBool true => "True"
  | PBool false => "False"
  | _ => py_str v
  end.

Definition __init__ (url client_id client_secret : string)
  (customer_id : option string) : io Client :=
  let self_url := rstrip "/" url in
  let data : gmap string string := {[ "grant_type" := "client_credentials" ]} in
  result ← session_post (self_url +:+ "/v1/authenticate") None (Some data) None
             (Some (client_id, client_secret));
  if (status_code result =? 200)%Z then
    parsed ← json result;
    token ← lift (py_getitem parsed "access_token");
    Return {| url := self_url; customer_id := customer_id; token := token |}
  else
    Raise (Client_Exception "Unable to authenticate to API").

Definition _get_headers (self : Client) : gmap string string :=
  let headers : gmap string string :=
    {[ "authorization" := "Bearer " +:+ format (token self) ]} in
  (* the header is the customer id itself: a string is formatted as itself *)
  if truthy (customer_id self)
  then <[ "x-sotaog-customer-id" := format (to_py (customer_id self)) ]> headers
  else headers.

Definition get_alarm_services (self : Client) : io pyval :=
  let headers := _get_headers self in
  result ← session_get (url self +:+ "/v1/alarm-services") headers None;
  if (status_code result =? 200)%Z then
    alarm_services ← json result;
    Return alarm_services
  else
    Raise (Client_Exception "Unable to retrieve alarm services").

Definition get_alarm_service (self : Client) (alarm_service_id : string)
  : io pyval :=
  let headers := _get_headers self in
  let url := url self +:+ "/v1/alarm-services/" +:+ alarm_service_id in
  result ← session_get url headers None;
  if (status_code result =? 200)%Z then
    alarm_service ← json result;
    Return alarm_service
  else
    Raise (Client_Exception
             ("Unable to retrieve alarm service " +:+ alarm_service_id)).

Definition get_alarms (self : Client) : io pyval :=
  let headers := _get_headers self in
  result ← session_get (url self +:+ "/v1/alarms") headers None;
  if (status_code result =? 200)%Z then
    alarms ← json result;
    Return alarms
  else
    Raise (Client_Exception "Unable to retrieve alarms").

Definition get_alarm (self : Client) (asset_id : string)
  (datatype : option string) : io pyval :=
  let headers := _get_headers self in
  let url := url self +:+ "/v1/alarms/" +:+ asset_id in
  let url := if truthy datatype
             then url +:+ "/" +:+ format (to_py datatype) else url in
  result ← session_get url headers None;
  if (status_code result =? 200)%Z then
    alarm ← json result;
    Return alarm
  else
    Raise (Client_Exception ("Unable to retrieve alarms for " +:+ asset_id)).

Definition get_facilities (self : Client) : io pyval :=
  let headers := _get_headers self in
  result ← session_get (url self +:+ "/v1/facilities") headers None;
  if (status_code result =? 200)%Z then
    facilities ← json result;
    Return facilities
  else
    Raise (Client_Exception "Unable to retrieve facilities").

Definition get_facility (self : Client) (facility_id : string) : io pyval :=
  let headers := _get_headers self in
  result ← session_get (url self +:+ "/v1/facilities/" +:+ facility_id)
             headers None;
  if (status_code result =? 200)%Z then
    facility ← json result;
    Return facility
  else
    Raise (Client_Exception ("Unable to retrieve facility " +:+ facility_id)).

Definition get_asset (self : Client) (asset_id type : string) : io pyval :=
  let headers := _get_headers self in
  result ← session_get (url self +:+ "/v1/" +:+ type +:+ "/" +:+ asset_id)
             headers None;
  if (status_code result =? 200)%Z then
    asset ← json result;
    Return asset
  else
    Raise (Client_Exception
             ("Unable to retrieve asset " +:+ asset_id +:+ " of type " +:+ type)).

(** The condition of the comprehensions of [get_assets]:
    [field in asset and asset[field] == value]. *)
Definition asset_matches (field : string) (value : option string)
  (asset : pyval) : outcome bool :=
  present ← py_in (Some field) asset;
  if present : bool then
    v ← py_getitem asset field;
    Returned (py_eq v value)
  else
    Returned false.

Definition get_assets (self : Client) (type : string)
  (facility asset_type : option string) : io pyval :=
  let headers := _get_headers self in
  result ← session_get (url self +:+ "/v1/" +:+ type) headers None;
  if (status_code result =? 200)%Z then
    assets ← json result;
    assets ← (if truthy facility
              then lift (list_comprehension (asset_matches "facility" facility) assets)
              else Return assets);
    assets ← (if truthy asset_type
              then lift (list_comprehension (asset_matches "asset_type" asset_type) assets)
              else Return assets);
    Return assets
  else
    Raise (Client_Exception
             ("Unable to retrieve assets of type " +:+ format (to_py asset_type))).

Definition get_datatypes (self : Client) (group_by : pyval) : io pyval :=
  let headers := _get_headers self in
  let params : gmap string pyval := ∅ in
  (* [params['group_by']: group_by] is an annotation without a value: it
     assigns nothing, in either branch of [if group_by:]. *)
  let params := if truthy group_by then params else params in
  result ← session_get (url self +:+ "/v1/datatypes") headers (Some params);
  if (status_code result =? 200)%Z then
    json result
  else
    Raise (Client_Exception "Unable to get datatypes").

Definition get_datatype (self : Client) (datatype_id : string) : io pyval :=
  let headers := _get_headers self in
  let params : gmap string pyval := {[ "group_by" := PStr "asset" ]} in
  result ← session_get (url self +:+ "/v1/datatypes/" +:+ datatype_id)
             headers (Some params);
  if (status_code result =? 200)%Z then
    json result
  else
    Raise (Client_Exception ("Unable to get datatype " +:+ datatype_id)).

Definition get_datapoints (self : Client) (asset_datatypes : pyval)
  (start_ts end_ts : option Z) (sort : string) (limit : Z) : io pyval :=
  let headers := _get_headers self in
  let body : gmap string pyval := {[ "asset_datatypes" := asset_datatypes ]} in
  let body := if truthy start_ts
              then <[ "start_ts" := to_py start_ts ]> body else body in
  let body := if truthy end_ts
              then <[ "end_ts" := to_py end_ts ]> body else body in
  let body := if truthy sort then <[ "sort" := to_py sort ]> body else body in
  let body := if truthy limit then <[ "limit" := to_py limit ]> body else body in
  result ← session_post (url self +:+ "/v1/datapoints") (Some headers) None
             (Some (PDict body)) None;
  if (status_code result =? 200)%Z then
    datapoints ← json result;
    Return datapoints
  else
    _ ← json result;
    Raise (Client_Exception "Unable to get datapoints").

Definition get_asset_datapoints (self : Client) (asset_id : string)
  (datatypes : list string) (start_ts end_ts : option Z) (sort : string)
  (limit : Z) : io pyval :=
  let headers := _get_headers self in
  let params : gmap string pyval := ∅ in
  let params := if truthy datatypes
                then <[ "datatypes" := to_py datatypes ]> params else params in
  let params := if truthy start_ts
                then <[ "start_ts" := to_py start_ts ]> params else params in
  let params := if truthy end_ts
                then <[ "end_ts" := to_py end_ts ]> params else params in
  let params := if truthy sort
                then <[ "sort" := to_py sort ]> params else params in
  let params := if truthy limit
                then <[ "limit" := to_py limit ]> params else params in
  result ← session_get (url self +:+ "/v1/datapoints/" +:+ asset_id)
             headers (Some params);
  if (status_code result =? 200)%Z then
    datapoints ← json result;
    Return datapoints
  else
    Raise (Client_Exception "Unable to get datapoints").

(** The condition of the comprehension of [get_swd_networks]:
    [facility in swd_network['facilities']]. *)
Definition swd_network_matches (facility : option string)
  (swd_network : pyval) : outcome bool :=
  facilities ← py_getitem swd_network "facilities";
  py_in facility facilities.

Definition get_swd_networks (self : Client) (facility : option string)
  : io pyval :=
  let headers := _get_headers self in
  result ← session_get (url self +:+ "/v1/swd-networks") headers None;
  if (status_code result =? 200)%Z then
    swd_networks ← json result;
    swd_networks ← (if truthy facility
                    then lift (list_comprehension
                                 (swd_network_matches facility) swd_networks)
                    else Return swd_networks);
    Return swd_networks
  else
    Raise (Client_Exception "Unable to retrieve SWD networks").

Definition get_truck_tickets (self : Client) (facility type : option string)
  (start_ts end_ts : option Z) : io pyval :=
  let headers := _get_headers self in
  let params : gmap string pyval := ∅ in
  let params := if truthy start_ts
                then <[ "start_ts" := to_py start_ts ]> params else params in
  let params := if truthy end_ts
                then <[ "end_ts" := to_py end_ts ]> params else params in
  let params := if truthy type
                then <[ "type" := to_py type ]> params else params in
  let params := if truthy facility
                then <[ "facility" := to_py facility ]> params else params in
  result ← session_get (url self +:+ "/v1/truck-tickets") headers (Some params);
  if (status_code result =? 200)%Z then
    truck_tickets ← json result;
    Return truck_tickets
  else
    Raise (Client_Exception "Unable to retrieve truck tickets").

(** [post_datapoints] has no [return]: on success its value is [None]. *)
Definition post_datapoints (self : Client) (asset_id : string)
  (datapoints : pyval) : io pyval :=
  let headers := _get_headers self in
  result ← session_post (url self +:+ "/v1/datapoints/" +:+ asset_id)
             (Some headers) None (Some datapoints) None;
  if negb (status_code result =? 202)%Z then
    _ ← json result;
    Raise (Exception "Unable to post datapoints")
  else
    Return PNone.

(** [Client(url, client_id, client_secret[, customer_id])] *)
Definition new_Client (url client_id client_secret : string)
  (customer_id : arg (option string)) : io Client :=
  __init__ url client_id client_secret (or_default None customer_id).

(** A call is the method applied to the passed arguments and to the
    defaults of its signature for the omitted ones. *)
Definition invoke (self : Client) (c : call) : io pyval :=
  match c with
  | call_get_alarm_services => get_alarm_services self
  | call_get_alarm_service alarm_service_id =>
      get_alarm_service self alarm_service_id
  | call_get_alarms => get_alarms self
  | call_get_alarm asset_id datatype =>
      get_alarm self asset_id (or_default None datatype)
  | call_get_facilities => get_facilities self
  | call_get_facility facility_id => get_facility self facility_id
  | call_get_asset asset_id type =>
      get_asset self asset_id (or_default "assets" type)
  | call_get_assets type facility asset_type =>
      get_assets self (or_default "assets" type) (or_default None facility)
        (or_default None asset_type)
  | call_get_datatypes group_by =>
      get_datatypes self (or_default (PStr "asset") group_by)
  | call_get_datatype datatype_id => get_datatype self datatype_id
  | call_get_datapoints asset_datatypes start_ts end_ts sort limit =>
      get_datapoints self asset_datatypes (or_default None start_ts)
        (or_default None end_ts) (or_default "desc" sort) (or_default 100 limit)
  | call_get_asset_datapoints asset_id datatypes start_ts end_ts sort limit =>
      get_asset_datapoints self asset_id (or_default [] datatypes)
        (or_default None start_ts) (or_default None end_ts)
        (or_default "desc" sort) (or_default 100 limit)
  | call_get_swd_networks facility =>
      get_swd_networks self (or_default None facility)
  | call_get_truck_tickets facility type start_ts end_ts =>
      get_truck_tickets self (or_default None facility) (or_default None type)
        (or_default None start_ts) (or_default None end_ts)
  | call_post_datapoints asset_id datapoints =>
      post_datapoints self asset_id datapoints
  end.


(** ** Vocabulary of the statements *)

(** The response a method receives to the request it sends. *)
Definition response_to {A} (srv : request → response) (m : io A)
  : option response :=
  match m with
  | Request r _ => Some (srv r)
  | _ => None
  end.

(** A method that has ended: it sends nothing more. *)
Definition finished {A} (m : io A) : Prop :=
  match m with Request _ _ => False | _ => True end.

(** The keys a request carries as query parameters or in a JSON object
    body. *)
Definition payload (req : request) : gmap string pyval :=
  default ∅ (req_params req) ∪
  match req_json req with Some (PDict d) => d | _ => ∅ end.

#[global] Instance pyval_is_str_dec (v : pyval) (s : string) : Decision (v = PStr s).
Proof.
  refine (match v with
          | PStr s' => cast_if (decide (s' = s))
          | _ => right _
          end); congruence.
Defined.

(** A record has [field], and its value is the string [value]. *)
Definition field_is (field value : string) (d : gmap string pyval) : Prop :=
  d !! field = Some (PStr value).

#[global] Instance field_is_dec field value d : Decision (field_is field value d).
Proof.
  unfold field_is.
  refine (match d !! field as o return Decision (o = Some (PStr value)) with
          | Some v => cast_if (decide (v = PStr value))
          | None => right _
          end); congruence.
Defined.

(** The records a filter argument keeps: a non-empty string keeps the
    records whose [field] is that string, in their order; [None] and the
    empty string keep them all. *)
Definition records_with (field : string) (value : option string)
  (records : list (gmap string pyval)) : list (gmap string pyval) :=
  match value with
  | Some (String _ _ as v) => filter (field_is field v) records
  | _ => records
  end.

(** A record has a [facilities] list, and [facility] is one of its
    elements. *)
Definition serves (facility : string) (d : gmap string pyval) : Prop :=
  ∃ l, d !! "facilities" = Some (PList l) ∧ Exists (λ v, v = PStr facility) l.

#[global] Instance serves_dec facility d : Decision (serves facility d).
Proof.
  unfold serves.
  refine (match d !! "facilities" as o
                return Decision (∃ l, o = Some (PList l) ∧ Exists _ l) with
          | Some (PList l) => cast_if (decide (Exists (λ v, v = PStr facility) l))
          | _ => right _
          end); try (by intros (? & [=] & _)).
  - by exists l.
  - by intros (? & [= <-] & ?).
Defined.

(** A record has a [facilities] field that is a list. *)
Definition has_facilities_list (d : gmap string pyval) : Prop :=
  ∃ l, d !! "facilities" = Some (PList l).

(** The optional arguments a call leaves out, by name. *)
Definition omitted {A} (name : string) (a : arg A) : list string :=
  match a with Omitted => [name] | Passed _ => [] end.

Definition omitted_args (c : call) : list string :=
  match c with
  | call_get_alarm _ datatype => omitted "datatype" datatype
  | call_get_asset _ type => omitted "type" type
  | call_get_assets type facility asset_type =>
      omitted "type" type ++ omitted "facility" facility
        ++ omitted "asset_type" asset_type
  | call_get_datatypes group_by => omitted "group_by" group_by
  | call_get_datapoints _ start_ts end_ts sort limit =>
      omitted "start_ts" start_ts ++ omitted "end_ts" end_ts
        ++ omitted "sort" sort ++ omitted "limit" limit
  | call_get_asset_datapoints _ datatypes start_ts end_ts sort limit =>
      omitted "datatypes" datatypes ++ omitted "start_ts" start_ts
        ++ omitted "end_ts" end_ts ++ omitted "sort" sort
        ++ omitted "limit" limit
  | call_get_swd_networks facility => omitted "facility" facility
  | call_get_truck_tickets facility type start_ts end_ts =>
      omitted "facility" facility ++ omitted "type" type
        ++ omitted "start_ts" start_ts ++ omitted "end_ts" end_ts
  | _ => []
  end.

(** The arguments a call passes with a falsy value, by name, among the
    arguments the method tests with [if]. *)
Definition falsy {A} `{Truthy A} (name : string) (a : arg A) : list string :=
  match a with
  | Passed x => if truthy x then [] else [name]
  | Omitted => []
  end.

Definition falsy_args (c : call) : list string :=
  match c with
  | call_get_alarm _ datatype => falsy "datatype" datatype
  | call_get_assets _ facility asset_type =>
      falsy "facility" facility ++ falsy "asset_type" asset_type
  | call_get_datatypes group_by => falsy "group_by" group_by
  | call_get_datapoints _ start_ts end_ts sort limit =>
      falsy "start_ts" start_ts ++ falsy "end_ts" end_ts
        ++ falsy "sort" sort ++ falsy "limit" limit
  | call_get_asset_datapoints _ datatypes start_ts end_ts sort limit =>
      falsy "datatypes" datatypes ++ falsy "start_ts" start_ts
        ++ falsy "end_ts" end_ts ++ falsy "sort" sort ++ falsy "limit" limit
  | call_get_swd_networks facility => falsy "facility" facility
  | call_get_truck_tickets facility type start_ts end_ts =>
      falsy "facility" facility ++ falsy "type" type
        ++ falsy "start_ts" start_ts ++ falsy "end_ts" end_ts
  | _ => []
  end.

(** The call in which every argument passed with a falsy value is left out
    instead, for the arguments whose default is [None] or the empty list
    (and [group_by], which is never sent). [sort] and [limit] are kept:
    their defaults are not falsy; [asset_type] of [get_assets] is kept: the
    message of the error names it. *)
Definition omit_if_falsy {A} `{Truthy A} (a : arg A) : arg A :=
  match a with
  | Passed x => if truthy x then a else Omitted
  | Omitted => Omitted
  end.

Definition omit_falsy (c : call) : call :=
  match c with
  | call_get_alarm asset_id datatype =>
      call_get_alarm asset_id (omit_if_falsy datatype)
  | call_get_assets type facility asset_type =>
      call_get_assets type (omit_if_falsy facility) asset_type
  | call_get_datatypes group_by => call_get_datatypes (omit_if_falsy group_by)
  | call_get_datapoints asset_datatypes start_ts end_ts sort limit =>
      call_get_datapoints asset_datatypes (omit_if_falsy start_ts)
        (omit_if_falsy end_ts) sort limit
  | call_get_asset_datapoints asset_id datatypes start_ts end_ts sort limit =>
      call_get_asset_datapoints asset_id (omit_if_falsy datatypes)
        (omit_if_falsy start_ts) (omit_if_falsy end_ts) sort limit
  | call_get_swd_networks facility =>
      call_get_swd_networks (omit_if_falsy facility)
  | call_get_truck_tickets facility type start_ts end_ts =>
      call_get_truck_tickets (omit_if_falsy facility) (omit_if_falsy type)
        (omit_if_falsy start_ts) (omit_if_falsy end_ts)
  | _ => c
  end.

(** The calls of the write operation, and of the bulk read that posts. *)
Definition is_post_datapoints (c : call) : bool :=
  match c with call_post_datapoints _ _ => true | _ => false end.

Definition is_get_datapoints (c : call) : bool :=
  match c with call_get_datapoints _ _ _ _ _ => true | _ => false end.

(** The calls whose result is filtered by the client: a filter argument is
    passed and truthy. *)
Definition filters (c : call) : bool :=
  match c with
  | call_get_assets _ facility asset_type =>
      truthy (or_default None facility) || truthy (or_default None asset_type)
  | call_get_swd_networks facility => truthy (or_default None facility)
  | _ => false
  end.

(** Every character of [s] is one of [chars]. *)
Fixpoint only_chars (chars s : string) : bool :=
  match s with
  | EmptyString => true
  | String c s' => mem_char c chars && only_chars chars s'
  end.

Fixpoint last_char (s : string) : option Ascii.ascii :=
  match s with
  | EmptyString => None
  | String c s' =>
      match s' with
      | EmptyString => Some c
      | String _ _ => last_char s'
      end
  end.

(** The customer header a Client sends: its customer id, unless that is
    [None] or empty. *)
Definition customer_header (self : Client) : option string :=
  match customer_id self with
  | Some (String _ _ as cid) => Some cid
  | _ => None
  end.

(** The arguments a call passes with a truthy value, with the key and the
    value under which the method sends them, besides what it always sends:
    [asset_datatypes] of [get_datapoints], [group_by] of [get_datatype]. *)
Definition passed {A} `{Truthy A} `{ToPy A} (name : string) (a : arg A)
  : list (string * pyval) :=
  match a with
  | Passed x => if truthy x then [(name, to_py x)] else []
  | Omitted => []
  end.

Definition sent_args (c : call) : list (string * pyval) :=
  match c with
  | call_get_datatype _ => [("group_by", PStr "asset")]
  | call_get_datapoints asset_datatypes start_ts end_ts sort limit =>
      ("asset_datatypes", asset_datatypes)
        :: passed "start_ts" start_ts ++ passed "end_ts" end_ts
        ++ passed "sort" sort ++ passed "limit" limit
  | call_get_asset_datapoints _ datatypes start_ts end_ts sort limit =>
      passed "datatypes" datatypes ++ passed "start_ts" start_ts
        ++ passed "end_ts" end_ts ++ passed "sort" sort ++ passed "limit" limit
  | call_get_truck_tickets facility type start_ts end_ts =>
      passed "facility" facility ++ passed "type" type
        ++ passed "start_ts" start_ts ++ passed "end_ts" end_ts
  | _ => []
  end.

(** ** Data of the examples *)

(** A mock server: it answers every request with the same response. *)
Definition mock (status : Z) (parsed : option pyval) : request → response :=
  λ _, {| status_code := status; body := parsed |}.

(** A stand-in for [str()] on numbers and containers; the examples format
    none. *)
Definition show (v : pyval) : string :=
  match v with
  | PInt _ => "<int>"
  | PFloat _ _ => "<float>"
  | PList _ => "<list>"
  | PDict _ => "<dict>"
  | _ => ""
  end.

Definition client_T : Client :=
  {| url := "https://api.example"; customer_id := None; token := PStr "T" |}.

Definition two_assets : list (gmap string pyval) :=
  [ {[ "facility" := PStr "F1" ]}; {[ "facility" := PStr "F2" ]} ].

Definition two_networks : list (gmap string pyval) :=
  [ {[ "facilities" := PList [PStr "F1"; PStr "F2"] ]};
    {[ "facilities" := PList [PStr "F3"] ]} ].

Lemma sent_Request {A} srv r (k : response → io A) :
  sent srv (Request r k) = r :: sent srv (k (srv r)).
Proof. reflexivity. Qed.

Lemma result_of_Request {A} srv r (k : response → io A) :
  result_of srv (Request r k) = result_of srv (k (srv r)).
Proof. reflexivity. Qed.

Lemma sent_lift {A} srv (o : outcome A) : sent srv (lift o) = [].
Proof. by destruct o. Qed.

Lemma result_of_lift {A} srv (o : outcome A) : result_of srv (lift o) = o.
Proof. by destruct o. Qed.

Lemma init_sends srv url client_id client_secret customer_id :
  sent srv (__init__ url client_id client_secret customer_id) =
  [ {| req_method := POST;
       req_url := rstrip "/" url +:+ "/v1/authenticate";
       req_headers := None; req_params := None;
       req_data := Some {[ "grant_type" := "client_credentials" ]};
       req_json := None;
       req_auth := Some (client_id, client_secret) |} ].
Proof.
  unfold __init__, session_post. cbn. f_equal.
  destruct (status_code _ =? 200)%Z; [|done].
  unfold json. destruct (body _) as [v|]; [|done]. cbn.
  by destruct (py_getitem v "access_token").
Qed.

(** C1 (amended). Constructing a Client sends the authenticate request. It
    succeeds exactly when the response status is 200 and the body parses to
    a JSON object that has an [access_token] field; the stored token is then
    that field and the stored URL the normalized one. For every non-200
    status construction raises the client error, so every Client that
    exists holds a token taken from a 200 authenticate response. *)
Theorem construction_succeeds_iff srv base_url client_id client_secret customer resp :
  response_to srv (new_Client base_url client_id client_secret customer) = Some resp →
  (∀ self,
     result_of srv (new_Client base_url client_id client_secret customer)
       = Returned self ↔
     status_code resp = 200 ∧
     ∃ d tok, body resp = Some (PDict d) ∧ d !! "access_token" = Some tok ∧
              self = {| url := rstrip "/" base_url;
                        customer_id := or_default None customer;
                        token := tok |}) ∧
  (status_code resp ≠ 200 →
   result_of srv (new_Client base_url client_id client_secret customer)
     = Raised (Client_Exception "Unable to authenticate to API")).
Proof.
  unfold new_Client, __init__, session_post. cbn.
  intros [= <-]. set (resp := srv _).
  destruct (Z.eqb_spec (status_code resp) 200) as [Hs|Hs]; last first.
  { split; [|done]. intros self; split; [done|]. by intros [? _]. }
  split; [|done]. intros self. unfold json.
  destruct (body resp) as [[| | | | | |d]|]; cbn;
    try (split; [done | by intros (_ & ? & ? & [=] & _)]).
  destruct (d !! "access_token") as [t|] eqn:Ht; cbn.
  - split.
    + intros [= <-]. split; [done|]. by exists d, t.
    + intros (_ & d' & t' & [= <-] & Ht' & ->). congruence.
  - split; [done|]. intros (_ & d' & t' & [= <-] & Ht' & _). congruence.
Qed.

(** ** The write operation *)

(** C2. [post_datapoints] sends one POST and returns normally, with the
    value [None], exactly when the response status is 202; for every other
    status, 200 and 201 included, it raises. *)
Theorem post_datapoints_returns_iff_202 srv self asset_id datapoints :
  ∃ req,
    sent srv (post_datapoints self asset_id datapoints) = [req] ∧
    req_method req = POST ∧
    req_url req = url self +:+ "/v1/datapoints/" +:+ asset_id ∧
    req_json req = Some datapoints ∧
    ((∃ v, result_of srv (post_datapoints self asset_id datapoints) = Returned v)
       ↔ status_code (srv req) = 202) ∧
    (status_code (srv req) = 202 →
       result_of srv (post_datapoints self asset_id datapoints) = Returned PNone) ∧
    (status_code (srv req) ≠ 202 →
       ∃ e, result_of srv (post_datapoints self asset_id datapoints) = Raised e).
Proof.
  unfold post_datapoints, session_post. cbn. eexists. set (resp := srv _).
  destruct (Z.eqb_spec (status_code resp) 202) as [Hs|Hs]; cbn.
  - repeat split; eauto. done.
  - unfold json. destruct (body resp); cbn;
      (repeat split; [by intros [? ?] | done | done | eauto]).
Qed.


(** ** Client-side filters *)

#[local] Arguments list_comprehension : simpl never.

Lemma comprehension_records cond (P : gmap string pyval → Prop)
    `{!∀ d, Decision (P d)} records :
  Forall (λ d, cond (PDict d) = Returned (bool_decide (P d))) records →
  comprehension cond (PDict <$> records) = Returned (PDict <$> filter P records).
Proof.
  induction 1 as [|d records Hd _ IH]; [done|].
  cbn. rewrite Hd. cbn. rewrite IH. cbn.
  unfold bool_decide, decide. by destruct (H d).
Qed.

Lemma asset_matches_record field value d :
  asset_matches field (Some value) (PDict d)
  = Returned (bool_decide (field_is field value d)).
Proof.
  unfold asset_matches. cbn.
  destruct (decide (field_is field value d)) as [Hf|Hf].
  - rewrite (bool_decide_eq_true_2 _ Hf). unfold field_is in Hf.
    rewrite Hf. cbn. by rewrite String.eqb_refl.
  - rewrite (bool_decide_eq_false_2 _ Hf). unfold field_is in Hf.
    destruct (d !! field) as [v|]; cbn; [|done]. f_equal.
    destruct v; cbn; try done.
    destruct (String.eqb_spec s value); [by subst|done].
Qed.

Lemma filter_records field value records :
  truthy value = true →
  list_comprehension (asset_matches field value) (PList (PDict <$> records))
  = Returned (PList (PDict <$> records_with field value records)).
Proof.
  destruct value as [[|c v]|]; [done| |done]. intros _.
  unfold list_comprehension. cbn [py_iter mbind outcome_bind].
  rewrite (comprehension_records _ (field_is field (String c v))); [done|].
  apply Forall_forall. intros d _. apply asset_matches_record.
Qed.

Lemma records_with_falsy field value records :
  truthy value = false → records_with field value records = records.
Proof. by destruct value as [[|c v]|]. Qed.

Lemma get_assets_on_records srv self type facility asset_type resp records :
  response_to srv (get_assets self type facility asset_type) = Some resp →
  status_code resp = 200 →
  body resp = Some (PList (PDict <$> records)) →
  result_of srv (get_assets self type facility asset_type)
  = Returned (PList (PDict <$>
      records_with "asset_type" asset_type
        (records_with "facility" facility records))).
Proof.
  unfold get_assets, session_get. cbn. intros [= <-].
  destruct (srv _) as [st bd]. cbn. intros -> ->. cbn.
  destruct (truthy facility) eqn:Hf; cbn.
  - rewrite filter_records by done. cbn.
    destruct (truthy asset_type) eqn:Ha; cbn.
    + by rewrite filter_records.
    + by rewrite (records_with_falsy "asset_type").
  - rewrite (records_with_falsy "facility") by done.
    destruct (truthy asset_type) eqn:Ha; cbn.
    + by rewrite filter_records.
    + by rewrite (records_with_falsy "asset_type").
Qed.

(** C4 (amended). On a 200 response whose body parses to a list of records,
    [get_assets] with a non-empty [facility] and/or [asset_type] returns
    exactly the records that have that field present and equal to the
    argument, in their original order; an argument that is omitted, [None]
    or the empty string does not filter. When neither argument filters, the
    parsed body is returned unmodified. *)
Theorem get_assets_filters srv self type facility asset_type resp :
  response_to srv (get_assets self type facility asset_type) = Some resp →
  status_code resp = 200 →
  (∀ records,
     body resp = Some (PList (PDict <$> records)) →
     result_of srv (get_assets self type facility asset_type)
     = Returned (PList (PDict <$>
         records_with "asset_type" asset_type
           (records_with "facility" facility records)))) ∧
  (∀ v,
     body resp = Some v →
     truthy facility = false → truthy asset_type = false →
     result_of srv (get_assets self type facility asset_type) = Returned v).
Proof.
  intros Hresp Hs. split.
  - intros records Hb. by apply get_assets_on_records with resp.
  - revert Hresp Hs. unfold get_assets, session_get. cbn.
    intros [= <-] -> v Hb -> ->. cbn. unfold json. by rewrite Hb.
Qed.

Lemma py_eq_str_true v s : py_eq_str v s = true ↔ v = PStr s.
Proof.
  destruct v; cbn; try done.
  destruct (String.eqb_spec s0 s); split; congruence.
Qed.

Lemma swd_network_matches_record facility d :
  has_facilities_list d →
  swd_network_matches (Some facility) (PDict d)
  = Returned (bool_decide (serves facility d)).
Proof.
  intros [l Hl]. unfold swd_network_matches. cbn. rewrite Hl. cbn. f_equal.
  apply eq_true_iff_eq. rewrite bool_decide_eq_true, existsb_exists.
  unfold serves. rewrite Hl. split.
  - intros (v & Hin & Hv%py_eq_str_true). exists l. split; [done|].
    apply Exists_exists. exists v. by rewrite list_elem_of_In.
  - intros (l' & [= <-] & (v & Hin & ->)%Exists_exists).
    exists (PStr facility). rewrite <- list_elem_of_In.
    by rewrite py_eq_str_true.
Qed.

Lemma comprehension_raises cond pre x post e :
  Forall (λ y, ∃ b, cond y = Returned b) pre →
  cond x = Raised e →
  comprehension cond (pre ++ x :: post)%list = Raised e.
Proof.
  intros Hpre Hx. induction Hpre as [|y pre [b Hy] _ IH]; cbn.
  - by rewrite Hx.
  - by rewrite Hy, IH.
Qed.

(** C5 (amended). On a 200 response whose body parses to a list of records
    that each have a [facilities] list, [get_swd_networks] with a non-empty
    [facility] returns exactly the records whose [facilities] contains it,
    in their original order. With [facility] omitted, [None] or the empty
    string it returns the parsed body unmodified. *)
Theorem get_swd_networks_filters srv self facility resp :
  response_to srv (get_swd_networks self facility) = Some resp →
  status_code resp = 200 →
  (∀ f records,
     facility = Some f → f ≠ "" →
     body resp = Some (PList (PDict <$> records)) →
     Forall has_facilities_list records →
     result_of srv (get_swd_networks self facility)
     = Returned (PList (PDict <$> filter (serves f) records))) ∧
  (∀ v,
     body resp = Some v →
     truthy facility = false →
     result_of srv (get_swd_networks self facility) = Returned v).
Proof.
  unfold get_swd_networks, session_get. cbn. intros [= <-]. set (resp := srv _).
  intros ->. cbn. unfold json. split.
  - intros f records -> Hf -> Hall. cbn.
    destruct f as [|c f]; [done|]. cbn.
    unfold list_comprehension. cbn [py_iter mbind outcome_bind].
    rewrite (comprehension_records _ (serves (String c f))); [done|].
    eapply Forall_impl; [exact Hall|]. intros d Hd.
    by apply swd_network_matches_record.
  - intros v -> ->. done.
Qed.

(** C9. There are 200 responses on which the filter of [get_swd_networks]
    raises [KeyError]: when the body is a list of records, a [facility]
    that filters is passed, and a record lacks the [facilities] key (the
    records before it having a [facilities] list), the call raises
    [KeyError('facilities')]; it neither returns a list nor raises the
    client error. [get_assets], which tests for the presence of the field,
    returns a list on the same body. *)
Theorem get_swd_networks_KeyError srv self facility resp
    (pre : list (gmap string pyval)) d post :
  response_to srv (get_swd_networks self facility) = Some resp →
  status_code resp = 200 →
  body resp = Some (PList (PDict <$> (pre ++ d :: post)%list)) →
  truthy facility = true →
  Forall has_facilities_list pre →
  d !! "facilities" = None →
  result_of srv (get_swd_networks self facility) = Raised (KeyError "facilities") ∧
  ∀ srv' type asset_type resp',
    response_to srv' (get_assets self type facility asset_type) = Some resp' →
    status_code resp' = 200 →
    body resp' = body resp →
    ∃ l, result_of srv' (get_assets self type facility asset_type)
         = Returned (PList l).
Proof.
  intros Hresp Hs Hb Hf Hpre Hd. split.
  - revert Hresp Hs Hb. unfold get_swd_networks, session_get. cbn.
    intros [= <-] -> Hb. cbn. unfold json. rewrite Hb, Hf. cbn.
    unfold list_comprehension. cbn [py_iter mbind outcome_bind].
    rewrite fmap_app, fmap_cons.
    rewrite (comprehension_raises _ _ _ _ (KeyError "facilities")); [done| |].
    + apply Forall_fmap. eapply Forall_impl; [exact Hpre|]. intros r Hr.
      destruct facility as [f|]; [|done].
      eexists. by apply swd_network_matches_record.
    + unfold swd_network_matches. cbn. by rewrite Hd.
  - intros srv' type asset_type resp' Hresp' Hs' Hb'. rewrite Hb in Hb'.
    eexists. by eapply get_assets_on_records.
Qed.

(** ** One request per call *)

Lemma finished_lift {A} (o : outcome A) : finished (lift o).
Proof. by destruct o. Qed.

Lemma finished_json result : finished (json result).
Proof. unfold json. by destruct (body result). Qed.

Lemma finished_bind {A B} (m : io A) (f : A → io B) :
  finished m → (∀ a, finished (f a)) → finished (m ≫= f).
Proof. destruct m; cbn; auto. Qed.

Lemma finished_if {A} (b : bool) (m1 m2 : io A) :
  finished m1 → finished m2 → finished (if b then m1 else m2).
Proof. by destruct b. Qed.

Lemma sent_finished {A} srv (m : io A) : finished m → sent srv m = [].
Proof. by destruct m. Qed.

Ltac finish :=
  repeat first
    [ exact I
    | apply finished_json
    | apply finished_lift
    | apply finished_if
    | apply finished_bind; [|intros ?] ].

(** Every call sends exactly one request and then returns or raises. *)
Lemma invoke_one_request self c :
  ∃ req k, invoke self c = Request req k ∧ ∀ resp, finished (k resp).
Proof.
  destruct c; cbn; eexists _, _; (split; [reflexivity|]); intros resp; cbn; finish.
Qed.

Lemma sent_invoke srv self c req k :
  invoke self c = Request req k → sent srv (invoke self c) = [req].
Proof.
  intros Heq. destruct (invoke_one_request self c) as (req' & k' & Heq' & Hk).
  rewrite Heq' in Heq |- *. injection Heq as -> _.
  rewrite sent_Request. by rewrite sent_finished.
Qed.

(** ** What is sent *)

(** C7. Every call of [get_datatypes], whatever [group_by] is and also when
    it is left to its default ['asset'], sends a GET to [/v1/datatypes] with
    an empty query-parameter mapping: [group_by] is never sent. *)
Theorem get_datatypes_sends_no_params srv self (group_by : arg pyval) :
  ∃ req,
    sent srv (invoke self (call_get_datatypes group_by)) = [req] ∧
    req_method req = GET ∧
    req_url req = url self +:+ "/v1/datatypes" ∧
    req_params req = Some ∅ ∧
    req_data req = None ∧
    req_json req = None ∧
    payload req = ∅.
Proof.
  eexists. split.
  - eapply sent_invoke. cbn. unfold get_datatypes, session_get. cbn. reflexivity.
  - cbn. destruct (truthy _); by repeat split.
Qed.

Lemma rstrip_slash_app u : rstrip "/" (u +:+ "/") = rstrip "/" u.
Proof.
  induction u as [|c u IH]; [done|].
  change (String c u +:+ "/") with (String c (u +:+ "/")).
  cbn [rstrip]. by rewrite IH.
Qed.

Lemma init_url srv base_url client_id client_secret customer self :
  result_of srv (__init__ base_url client_id client_secret customer)
    = Returned self →
  url self = rstrip "/" base_url.
Proof.
  unfold __init__, session_post. cbn.
  destruct (status_code _ =? 200)%Z; [|done]. unfold json.
  destruct (body _) as [v|]; [|done]. cbn.
  destruct (py_getitem v "access_token"); [|done]. cbn. by intros [= <-].
Qed.

Lemma request_urls srv self self' c :
  url self = url self' →
  req_url <$> sent srv (invoke self c) = req_url <$> sent srv (invoke self' c).
Proof.
  intros Hurl.
  destruct c;
    (erewrite !sent_invoke by (cbn; reflexivity)); cbn; by rewrite Hurl.
Qed.

(** C8. For every base URL [u], constructing a Client with [u] followed by
    ['/'] is the same as constructing it with [u]: the same authenticate
    request, the same outcome. Clients constructed the one way and the
    other hold the same normalized URL, and every call on the one sends its
    request to the URL the same call on the other sends it to. *)
Theorem trailing_slash_is_stripped u :
  (∀ client_id client_secret customer_id,
     new_Client (u +:+ "/") client_id client_secret customer_id
     = new_Client u client_id client_secret customer_id) ∧
  (∀ srv1 srv2 id1 secret1 customer1 id2 secret2 customer2 self1 self2,
     result_of srv1 (new_Client (u +:+ "/") id1 secret1 customer1)
       = Returned self1 →
     result_of srv2 (new_Client u id2 secret2 customer2) = Returned self2 →
     url self1 = url self2 ∧
     ∀ srv c,
       req_url <$> sent srv (invoke self1 c)
       = req_url <$> sent srv (invoke self2 c)).
Proof.
  split.
  - intros. unfold new_Client, __init__. by rewrite rstrip_slash_app.
  - intros * H1%init_url H2%init_url. rewrite rstrip_slash_app in H1.
    assert (url self1 = url self2) as Hurl by congruence.
    split; [done|]. intros srv c. by apply request_urls.
Qed.

Lemma lookup_cond_insert (b : bool) (k k' : string) (v : pyval)
    (m : gmap string pyval) :
  k ≠ k' → (if b then <[k:=v]> m else m) !! k' = m !! k'.
Proof. intros. destruct b; by rewrite ?lookup_insert_ne. Qed.

Ltac split_or :=
  repeat match goal with H : _ ∨ _ |- _ => destruct H as [H|H] end.

Ltac lookup_payload :=
  unfold payload; cbn [req_params req_json default id];
  rewrite ?(left_id_L ∅ (∪)), ?(right_id_L ∅ (∪));
  repeat first
    [ rewrite lookup_cond_insert by done
    | rewrite lookup_insert_ne by done
    | rewrite lookup_insert_eq
    | rewrite lookup_singleton_ne by done
    | rewrite lookup_empty
    | progress cbn [or_default truthy truthy_option truthy_string truthy_Z
                    truthy_list negb Z.eqb to_py to_py_string to_py_Z] ].

(** C6 (amended). For every call, an optional argument that is omitted and
    whose default is [None] or the empty list produces no key in the
    outgoing query parameters or JSON body, and neither does an omitted
    [type] or [group_by]. An omitted [sort] or [limit] is sent with its
    default, ['desc'] or [100]. *)
Theorem omitted_arguments srv self c :
  ∃ req,
    sent srv (invoke self c) = [req] ∧
    ∀ name, name ∈ omitted_args c →
      (name ≠ "sort" → name ≠ "limit" → payload req !! name = None) ∧
      (name = "sort" → payload req !! name = Some (PStr "desc")) ∧
      (name = "limit" → payload req !! name = Some (PInt 100)).
Proof.
  destruct c; (eexists; split; [eapply sent_invoke; reflexivity|]);
    intros name Hin; unfold omitted_args in Hin;
    try (by apply elem_of_nil in Hin).
  all: rewrite ?elem_of_app in Hin; split_or.
  all: match goal with
       | H : _ ∈ omitted _ ?a |- _ =>
           destruct a; [|by apply elem_of_nil in H];
           apply list_elem_of_singleton in H as ->
       end.
  all: repeat split; try done; intros; lookup_payload; done.
Qed.

Ltac case_value x :=
  lazymatch type of x with
  | option Z => destruct x as [[| |]|]
  | option string => destruct x as [[|]|]
  | list string => destruct x as [|]
  | pyval => destruct (truthy x) eqn:?
  | _ => idtac
  end.

Ltac case_args :=
  repeat match goal with
         | a : arg _ |- _ => destruct a as [|a]; [|case_value a]
         end.

Lemma invoke_omit_falsy self c : invoke self (omit_falsy c) = invoke self c.
Proof.
  destruct c; try reflexivity; case_args; try reflexivity.
  all: cbn [omit_falsy omit_if_falsy];
    match goal with E : truthy _ = _ |- _ => rewrite E end; try reflexivity.
  unfold invoke, get_datatypes. cbn [or_default].
  match goal with E : truthy _ = _ |- _ => by rewrite E end.
Qed.

Lemma init_customer_id srv base_url client_id client_secret customer self :
  result_of srv (__init__ base_url client_id client_secret customer)
    = Returned self →
  result_of srv (__init__ base_url client_id client_secret None)
    = Returned {| url := url self;
                  customer_id := None;
                  token := token self |} ∧
  customer_id self = customer.
Proof.
  unfold __init__, session_post. cbn.
  destruct (status_code _ =? 200)%Z; [|done]. unfold json.
  destruct (body _) as [v|]; [|done]. cbn.
  destruct (py_getitem v "access_token"); [|done]. cbn. by intros [= <-].
Qed.

Lemma invoke_empty_customer_id u t c :
  invoke {| url := u; customer_id := Some ""; token := t |} c
  = invoke {| url := u; customer_id := None; token := t |} c.
Proof. by destruct c. Qed.

(** C10 (amended). The optional arguments are tested for truthiness. An
    argument passed with a falsy value (0, the empty string, the empty
    list, [None]) produces no key in the outgoing query parameters or JSON
    body. Where the default is [None] or the empty list, and for
    [group_by], the call is then the same as the call that omits the
    argument: same request, same headers, same behaviour on every response.
    A Client constructed with the empty string as [customer_id] is
    constructed by the same request as one constructed without it, sends no
    [x-sotaog-customer-id] header, and behaves the same in every call. *)
Theorem falsy_arguments srv self c :
  (∃ req,
     sent srv (invoke self c) = [req] ∧
     ∀ name, name ∈ falsy_args c → payload req !! name = None) ∧
  invoke self (omit_falsy c) = invoke self c ∧
  (∀ url client_id client_secret,
     sent srv (new_Client url client_id client_secret (Passed (Some "")))
     = sent srv (new_Client url client_id client_secret Omitted) ∧
     ∀ self1,
       result_of srv (new_Client url client_id client_secret (Passed (Some "")))
         = Returned self1 →
       ∃ self2,
         result_of srv (new_Client url client_id client_secret Omitted)
           = Returned self2 ∧
         _get_headers self1 = _get_headers self2 ∧
         _get_headers self1 !! "x-sotaog-customer-id" = None ∧
         ∀ c', invoke self1 c' = invoke self2 c').
Proof.
  split; [|split].
  - destruct c; (eexists; split; [eapply sent_invoke; reflexivity|]);
      intros name Hin; unfold falsy_args in Hin;
      try (by apply elem_of_nil in Hin).
    all: rewrite ?elem_of_app in Hin; split_or.
    all: match goal with
         | H : _ ∈ falsy _ ?a |- _ =>
             destruct a as [|x]; [by apply elem_of_nil in H|];
             unfold falsy in H; destruct (truthy x) eqn:E;
             [by apply elem_of_nil in H|];
             apply list_elem_of_singleton in H as ->
         end.
    all: unfold payload; cbn [req_params req_json default id or_default];
      rewrite ?E; lookup_payload; done.
  - apply invoke_omit_falsy.
  - intros url client_id client_secret. split.
    + unfold new_Client. cbn [or_default]. by rewrite !init_sends.
    + intros self1 [H1 H2]%init_customer_id. eexists. split; [exact H1|].
      destruct self1 as [u cid t]. cbn in H2. subst cid.
      split; [reflexivity|]. split; [reflexivity|].
      intros c'. apply invoke_empty_customer_id.
Qed.

(** ** Failures *)

(** Every read raises [Client_Exception] on a status other than 200;
    [get_datapoints] does so when the body of the failure is JSON, which it
    parses first. *)
Lemma reads_raise_Client_Exception srv self c resp :
  response_to srv (invoke self c) = Some resp →
  status_code resp ≠ 200 →
  (∀ asset_id datapoints, c ≠ call_post_datapoints asset_id datapoints) →
  is_Some (body resp) →
  ∃ msg, result_of srv (invoke self c) = Raised (Client_Exception msg).
Proof.
  intros Hresp Hs Hc [v Hv].
  destruct c; try (by edestruct Hc); revert Hresp; cbn;
    intros [= <-]; apply Z.eqb_neq in Hs; rewrite Hs; cbn; eauto.
  unfold json. rewrite Hv. cbn. eauto.
Qed.

Lemma get_datapoints_raises_JSONDecodeError self asset_datatypes :
  result_of (mock 500 None)
    (invoke self (call_get_datapoints asset_datatypes Omitted Omitted Omitted Omitted))
  = Raised JSONDecodeError.
Proof. reflexivity. Qed.

(** C3 (the code departs from it). On a status other than 202, here 500
    with a JSON body, [post_datapoints] raises a plain [Exception], which
    is not a [Client_Exception]. *)
Theorem post_datapoints_raises_plain_Exception self asset_id datapoints v :
  result_of (mock 500 (Some v))
    (invoke self (call_post_datapoints asset_id datapoints))
  = Raised (Exception "Unable to post datapoints") ∧
  ∀ msg, Exception "Unable to post datapoints" ≠ Client_Exception msg.
Proof. split; [reflexivity | discriminate]. Qed.

(** ** The uniform contract of the reads *)

Lemma result_of_finished {A} srv srv' (m : io A) :
  finished m → result_of srv m = result_of srv' m.
Proof. by destruct m. Qed.

Lemma init_one_request base_url client_id client_secret customer :
  ∃ req k,
    __init__ base_url client_id client_secret customer = Request req k ∧
    ∀ resp, finished (k resp).
Proof.
  unfold __init__, session_post. cbn. eexists _, _. split; [reflexivity|].
  intros resp. cbn. finish.
Qed.

(** X1. A read whose result the client does not filter returns the parsed
    body of a 200 response as it is, whatever JSON value it is. *)
Theorem reads_pass_body_through srv self c resp v :
  response_to srv (invoke self c) = Some resp →
  status_code resp = 200 →
  body resp = Some v →
  is_post_datapoints c = false →
  filters c = false →
  result_of srv (invoke self c) = Returned v.
Proof.
  intros Hresp Hs Hb Hpost Hf.
  destruct c; try discriminate Hpost; revert Hresp; cbn [filters] in Hf;
    try apply orb_false_elim in Hf as [Hf1 Hf2];
    unfold invoke, get_assets, get_swd_networks;
    try rewrite Hf1, Hf2; try rewrite Hf; cbn;
    intros [= <-]; rewrite Hs; cbn; unfold json; by rewrite Hb.
Qed.

(** X2. On a status other than 200 every read raises [Client_Exception];
    only [get_datapoints] needs the body of the failure to be JSON for
    that, the other reads do not look at it. *)
Theorem reads_fail_with_Client_Exception srv self c resp :
  response_to srv (invoke self c) = Some resp →
  status_code resp ≠ 200 →
  is_post_datapoints c = false →
  (is_get_datapoints c = true → is_Some (body resp)) →
  ∃ msg, result_of srv (invoke self c) = Raised (Client_Exception msg).
Proof.
  intros Hresp Hs%Z.eqb_neq Hpost Hbody.
  destruct c; try discriminate Hpost; revert Hresp; cbn;
    intros [= <-]; rewrite Hs; cbn; eauto.
  destruct (Hbody eq_refl) as [v Hv]. unfold json. rewrite Hv. cbn. eauto.
Qed.

(** X3. [get_datapoints] parses the body of a failure before it raises: on
    a status other than 200 with a body that is not JSON it raises
    [JSONDecodeError], not the client error. *)
Theorem get_datapoints_failure_needs_json srv self asset_datatypes
    start_ts end_ts sort limit resp :
  response_to srv (get_datapoints self asset_datatypes start_ts end_ts sort limit)
    = Some resp →
  status_code resp ≠ 200 →
  body resp = None →
  result_of srv (get_datapoints self asset_datatypes start_ts end_ts sort limit)
  = Raised JSONDecodeError.
Proof.
  unfold get_datapoints, session_post. cbn.
  intros [= <-] Hs%Z.eqb_neq Hb. rewrite Hs. cbn. unfold json. by rewrite Hb.
Qed.

(** X4. A 200 response whose body is not JSON makes every read raise
    [JSONDecodeError]. *)
Theorem reads_raise_on_non_json_body srv self c resp :
  response_to srv (invoke self c) = Some resp →
  status_code resp = 200 →
  body resp = None →
  is_post_datapoints c = false →
  result_of srv (invoke self c) = Raised JSONDecodeError.
Proof.
  intros Hresp Hs Hb Hpost.
  destruct c; try discriminate Hpost; revert Hresp; cbn;
    intros [= <-]; rewrite Hs; cbn; unfold json; by rewrite Hb.
Qed.

(** X5. Construction and every call send exactly one request, the same
    whatever the server answers, and end in the way the response to that
    request decides: nothing is retried and nothing is cached. *)
Theorem one_request_per_call srv srv' self c base_url client_id client_secret customer :
  (length (sent srv (invoke self c)) = 1%nat ∧
   sent srv (invoke self c) = sent srv' (invoke self c) ∧
   (response_to srv (invoke self c) = response_to srv' (invoke self c) →
    result_of srv (invoke self c) = result_of srv' (invoke self c))) ∧
  (length (sent srv (new_Client base_url client_id client_secret customer)) = 1%nat ∧
   sent srv (new_Client base_url client_id client_secret customer)
   = sent srv' (new_Client base_url client_id client_secret customer) ∧
   (response_to srv (new_Client base_url client_id client_secret customer)
    = response_to srv' (new_Client base_url client_id client_secret customer) →
    result_of srv (new_Client base_url client_id client_secret customer)
    = result_of srv' (new_Client base_url client_id client_secret customer))).
Proof.
  assert (∀ A (m : io A),
            (∃ req k, m = Request req k ∧ ∀ resp, finished (k resp)) →
            length (sent srv m) = 1%nat ∧ sent srv m = sent srv' m ∧
            (response_to srv m = response_to srv' m →
             result_of srv m = result_of srv' m)) as Hone.
  { intros A m (req & k & -> & Hk). rewrite !sent_Request, !result_of_Request.
    rewrite !sent_finished by done. repeat split.
    cbn. intros [= ->]. by apply result_of_finished. }
  split; apply Hone.
  - apply invoke_one_request.
  - apply init_one_request.
Qed.

(** ** Headers and URLs *)

Lemma string_app_assoc (a b c : string) : (a +:+ b) +:+ c = a +:+ (b +:+ c).
Proof.
  induction a as [|x a IH]; [done|].
  change (String x ((a +:+ b) +:+ c) = String x (a +:+ b +:+ c)).
  by rewrite IH.
Qed.

Lemma get_headers_lookup self :
  _get_headers self !! "authorization"
    = Some ("Bearer " +:+ format (token self)) ∧
  _get_headers self !! "x-sotaog-customer-id" = customer_header self ∧
  ∀ k, k ≠ "authorization" → k ≠ "x-sotaog-customer-id" →
       _get_headers self !! k = None.
Proof.
  unfold _get_headers, customer_header.
  destruct (customer_id self) as [[|c cid]|]; cbn [truthy truthy_option truthy_string];
    cbv iota; repeat split; intros;
    rewrite ?lookup_insert_ne by done; rewrite ?lookup_insert_eq;
    rewrite ?lookup_singleton_ne by done; rewrite ?lookup_singleton_eq; done.
Qed.

(** X6. The request of every call carries the headers of the Client and no
    HTTP Basic credentials: [authorization] is ["Bearer "] followed by the
    token, [x-sotaog-customer-id] is the customer id when there is a
    non-empty one and is absent otherwise, and there is no other header. *)
Theorem requests_carry_headers srv self c :
  ∃ req headers,
    sent srv (invoke self c) = [req] ∧
    req_auth req = None ∧
    req_headers req = Some headers ∧
    headers !! "authorization" = Some ("Bearer " +:+ format (token self)) ∧
    headers !! "x-sotaog-customer-id" = customer_header self ∧
    ∀ k, k ≠ "authorization" → k ≠ "x-sotaog-customer-id" →
         headers !! k = None.
Proof.
  exists (match invoke self c with
          | Request req _ => req
          | _ => {| req_method := GET; req_url := ""; req_headers := None;
                    req_params := None; req_data := None; req_json := None;
                    req_auth := None |}
          end), (_get_headers self).
  split; [|split; [|split]].
  - destruct (invoke_one_request self c) as (req & k & Heq & _).
    rewrite (sent_invoke srv self c req k Heq). by rewrite Heq.
  - by destruct c.
  - by destruct c.
  - apply get_headers_lookup.
Qed.

(** X7. Every call sends its request to a URL made of the URL of the
    Client, [/v1/] and a path; the method is GET, except for
    [get_datapoints] and [post_datapoints], which POST. *)
Theorem requests_go_under_v1 srv self c :
  ∃ req path,
    sent srv (invoke self c) = [req] ∧
    req_url req = url self +:+ "/v1/" +:+ path ∧
    req_method req
    = if is_get_datapoints c || is_post_datapoints c then POST else GET.
Proof.
  destruct c; try (eexists _, _; split; [eapply sent_invoke; reflexivity|];
                   split; reflexivity).
  destruct (truthy (or_default None datatype)) eqn:Hd.
  - eexists _, ("alarms/" +:+ asset_id +:+ "/" +:+ format (to_py (or_default None datatype))).
    split; [eapply sent_invoke; reflexivity|]. split; [|reflexivity].
    cbn [req_url]. rewrite Hd. by rewrite string_app_assoc.
  - eexists _, ("alarms/" +:+ asset_id).
    split; [eapply sent_invoke; reflexivity|]. split; [|reflexivity].
    cbn [req_url]. by rewrite Hd.
Qed.

Lemma rstrip_decompose chars s :
  ∃ tail, s = rstrip chars s +:+ tail ∧ only_chars chars tail = true.
Proof.
  induction s as [|c s (tail & Hs & Htail)]; [by exists ""|].
  cbn [rstrip]. destruct (rstrip chars s) as [|b r] eqn:Hr.
  - change (s = tail) in Hs. subst tail. destruct (mem_char c chars) eqn:Hc.
    + exists (String c s). cbn. by rewrite Hc, Htail.
    + by exists s.
  - exists tail. cbn. by rewrite Hs at 1.
Qed.

Lemma rstrip_last_char chars s c :
  last_char (rstrip chars s) = Some c → mem_char c chars = false.
Proof.
  induction s as [|a s IH]; [done|].
  cbn [rstrip]. destruct (rstrip chars s) as [|b r] eqn:Hr.
  - destruct (mem_char a chars) eqn:Ha; [done|]. cbn. by intros [= <-].
  - intros H. by apply IH.
Qed.

(** X8. The URL a constructed Client holds is the given base URL without
    its trailing slashes: the base URL is the stored URL followed by
    slashes only, and the stored URL does not end with a slash. *)
Theorem constructed_url_is_normalized srv base_url client_id client_secret customer self :
  result_of srv (new_Client base_url client_id client_secret customer)
    = Returned self →
  (∃ tail, base_url = url self +:+ tail ∧ only_chars "/" tail = true) ∧
  ∀ c, last_char (url self) = Some c → mem_char c "/" = false.
Proof.
  intros ->%init_url. split; [apply rstrip_decompose|].
  intros c. apply rstrip_last_char.
Qed.

(** X9. How construction fails on a 200 response: with [JSONDecodeError]
    when the body is not JSON, with [TypeError] when it parses to something
    other than an object, and with [KeyError('access_token')] when it
    parses to an object without that field. *)
Theorem construction_failures_on_200 srv base_url client_id client_secret customer resp :
  response_to srv (new_Client base_url client_id client_secret customer)
    = Some resp →
  status_code resp = 200 →
  (body resp = None →
   result_of srv (new_Client base_url client_id client_secret customer)
   = Raised JSONDecodeError) ∧
  (∀ v, body resp = Some v → (∀ d, v ≠ PDict d) →
   result_of srv (new_Client base_url client_id client_secret customer)
   = Raised TypeError) ∧
  (∀ d, body resp = Some (PDict d) → d !! "access_token" = None →
   result_of srv (new_Client base_url client_id client_secret customer)
   = Raised (KeyError "access_token")).
Proof.
  unfold new_Client, __init__, session_post. cbn.
  intros [= <-] ->. cbn. unfold json.
  split; [|split].
  - by intros ->.
  - intros v -> Hv. destruct v; try done. by edestruct Hv.
  - intros d -> Hd. cbn. by rewrite Hd.
Qed.

(** ** What the payload holds *)

(** X10. An argument passed with a truthy value is sent under its own name
    with the value passed, in the query parameters or the JSON body;
    [get_datapoints] always sends [asset_datatypes], and [get_datatype]
    always sends [group_by=asset]. *)
Theorem truthy_arguments_are_sent srv self c :
  ∃ req,
    sent srv (invoke self c) = [req] ∧
    ∀ name v, (name, v) ∈ sent_args c → payload req !! name = Some v.
Proof.
  destruct c; (eexists; split; [eapply sent_invoke; reflexivity|]);
    intros name v Hin; unfold sent_args in Hin;
    rewrite ?elem_of_cons, ?elem_of_app, ?elem_of_nil in Hin; split_or;
    try done.
  all: try match goal with
           | H : _ ∈ passed _ ?a |- _ =>
               destruct a as [|x]; [by apply elem_of_nil in H|];
               unfold passed in H; destruct (truthy x) eqn:E;
               [|by apply elem_of_nil in H];
               apply list_elem_of_singleton in H
           end.
  all: match goal with H : (_, _) = (_, _) |- _ => injection H as -> -> end.
  all: unfold payload; cbn [req_params req_json default id or_default];
    rewrite ?E; lookup_payload; by rewrite ?lookup_singleton_eq.
Qed.

(** X11. The filters of [get_assets] and [get_swd_networks] stay on the
    client: the request carries no query parameters and no body, and is the
    same whatever [facility] and [asset_type] are. *)
Theorem filters_are_not_sent srv self type facility asset_type
    facility' asset_type' :
  (∃ req,
     sent srv (invoke self (call_get_assets type facility asset_type)) = [req] ∧
     sent srv (invoke self (call_get_assets type facility' asset_type')) = [req] ∧
     req_params req = None ∧ req_data req = None ∧ req_json req = None) ∧
  (∃ req,
     sent srv (invoke self (call_get_swd_networks facility)) = [req] ∧
     sent srv (invoke self (call_get_swd_networks facility')) = [req] ∧
     req_params req = None ∧ req_data req = None ∧ req_json req = None).
Proof.
  split; eexists; (split; [eapply sent_invoke; reflexivity|]);
    (split; [eapply sent_invoke; reflexivity|]); done.
Qed.

(** ** What the filters can do *)

Lemma comprehension_sublist cond l r :
  comprehension cond l = Returned r →
  r `sublist_of` l ∧ Forall (λ x, cond x = Returned true) r.
Proof.
  revert r. induction l as [|x l IH]; cbn; intros r.
  - intros [= <-]. split; constructor.
  - destruct (cond x) as [b|] eqn:Hx; [|done]. cbn.
    destruct (comprehension cond l) as [r'|]; [|done]. cbn.
    destruct (IH r' eq_refl) as [Hsub Hall].
    destruct b; intros [= <-]; split; try done.
    + by constructor.
    + by constructor.
    + by constructor.
Qed.

Lemma comprehension_all cond r :
  Forall (λ x, cond x = Returned true) r → comprehension cond r = Returned r.
Proof. induction 1 as [|x r Hx _ IH]; [done|]. cbn. by rewrite Hx, IH. Qed.

Lemma comprehension_raises_only cond (P : exn → Prop) l e :
  (∀ x e, cond x = Raised e → P e) →
  comprehension cond l = Raised e → P e.
Proof.
  intros Hcond. induction l as [|x l IH]; [done|]. cbn.
  destruct (cond x) as [b|e'] eqn:Hx; cbn.
  - destruct (comprehension cond l); cbn; [done|]. intros [= <-]. by apply IH.
  - intros [= <-]. by eapply Hcond.
Qed.

Lemma list_comprehension_returns cond v v' :
  list_comprehension cond v = Returned v' →
  ∃ r, v' = PList r ∧ Forall (λ x, cond x = Returned true) r ∧
       ∀ l, v = PList l → r `sublist_of` l.
Proof.
  unfold list_comprehension. destruct (py_iter v) as [items|] eqn:Hv; [|done].
  cbn. destruct (comprehension cond items) as [r|] eqn:Hr; [|done]. cbn.
  intros [= <-]. apply comprehension_sublist in Hr as [Hsub Hall].
  exists r. repeat split; [done|]. intros l ->. by injection Hv as ->.
Qed.

Lemma list_comprehension_raises cond (P : exn → Prop) v e :
  (∀ x e, cond x = Raised e → P e) → P TypeError →
  list_comprehension cond v = Raised e → P e.
Proof.
  intros Hcond HT. unfold list_comprehension.
  destruct (py_iter v) as [items|e'] eqn:Hv; cbn.
  - destruct (comprehension cond items) as [r|] eqn:Hr; [done|]. cbn.
    intros [= <-]. by eapply comprehension_raises_only.
  - intros [= <-]. destruct v; try discriminate Hv; by injection Hv as <-.
Qed.

Lemma list_comprehension_again cond r :
  Forall (λ x, cond x = Returned true) r →
  list_comprehension cond (PList r) = Returned (PList r).
Proof.
  intros Hall. unfold list_comprehension. cbn [py_iter mbind outcome_bind].
  by rewrite comprehension_all.
Qed.

Lemma asset_matches_raises field value x e :
  asset_matches field value x = Raised e → e = TypeError.
Proof.
  unfold asset_matches.
  destruct x as [| | | |s|l|d]; cbn; try by intros [= <-].
  - destruct (is_substring field s); cbn; [by intros [= <-]|done].
  - destruct (existsb _ l); cbn; [by intros [= <-]|done].
  - by destruct (d !! field) as [v|].
Qed.

Lemma swd_network_matches_raises facility x e :
  swd_network_matches facility x = Raised e →
  e = KeyError "facilities" ∨ e = TypeError.
Proof.
  unfold swd_network_matches.
  destruct x as [| | | |s|l|d]; cbn; try (intros [= <-]; by right).
  destruct (d !! "facilities") as [v|]; cbn; [|intros [= <-]; by left].
  destruct facility as [f|]; destruct v; cbn; try done; intros [= <-]; by right.
Qed.

(** X12. On a 200 response with a JSON body [get_assets] either returns or
    raises [TypeError] (an element that is not a record): the guarded
    lookup never raises [KeyError]. When the body is a list, what is
    returned is a list of elements of the body, in their order. *)
Theorem get_assets_outcomes srv self type facility asset_type resp v :
  response_to srv (get_assets self type facility asset_type) = Some resp →
  status_code resp = 200 →
  body resp = Some v →
  (∀ e, result_of srv (get_assets self type facility asset_type) = Raised e →
        e = TypeError) ∧
  (∀ l v', v = PList l →
           result_of srv (get_assets self type facility asset_type)
             = Returned v' →
           ∃ r, v' = PList r ∧ r `sublist_of` l).
Proof.
  unfold get_assets, session_get. cbn. intros [= <-].
  destruct (srv _) as [st bd]. cbn. intros -> ->. cbn.
  assert (∀ field value x e,
            list_comprehension (asset_matches field value) x = Raised e →
            e = TypeError) as Hraises.
  { intros field value x e.
    apply (list_comprehension_raises _ (λ e, e = TypeError));
      [apply asset_matches_raises|done]. }
  destruct (truthy facility); cbn.
  - destruct (list_comprehension (asset_matches "facility" facility) v)
      as [a|e1] eqn:H1; cbn.
    + apply list_comprehension_returns in H1 as (r1 & -> & _ & Hsub1).
      destruct (truthy asset_type); cbn.
      * destruct (list_comprehension (asset_matches "asset_type" asset_type)
                    (PList r1)) as [b|e2] eqn:H2; cbn.
        -- split; [done|]. intros l v' -> [= <-].
           apply list_comprehension_returns in H2 as (r2 & -> & _ & Hsub2).
           exists r2. split; [done|].
           etrans; [by apply Hsub2|by apply Hsub1].
        -- split; [|done]. intros e [= <-]. eauto.
      * split; [done|]. intros l v' -> [= <-]. eauto.
    + split; [|done]. intros e [= <-]. eauto.
  - destruct (truthy asset_type); cbn.
    + destruct (list_comprehension (asset_matches "asset_type" asset_type) v)
        as [b|e2] eqn:H2; cbn.
      * split; [done|]. intros l v' -> [= <-].
        apply list_comprehension_returns in H2 as (r2 & -> & _ & Hsub2). eauto.
      * split; [|done]. intros e [= <-]. eauto.
    + split; [done|]. intros l v' -> [= <-]. by eexists.
Qed.

(** X13. On a 200 response with a JSON body [get_swd_networks] either
    returns, or raises [KeyError('facilities')] or [TypeError]. When the
    body is a list, what is returned is a list of elements of the body, in
    their order. *)
Theorem get_swd_networks_outcomes srv self facility resp v :
  response_to srv (get_swd_networks self facility) = Some resp →
  status_code resp = 200 →
  body resp = Some v →
  (∀ e, result_of srv (get_swd_networks self facility) = Raised e →
        e = KeyError "facilities" ∨ e = TypeError) ∧
  (∀ l v', v = PList l →
           result_of srv (get_swd_networks self facility) = Returned v' →
           ∃ r, v' = PList r ∧ r `sublist_of` l).
Proof.
  unfold get_swd_networks, session_get. cbn. intros [= <-].
  destruct (srv _) as [st bd]. cbn. intros -> ->. cbn.
  destruct (truthy facility); cbn.
  - destruct (list_comprehension (swd_network_matches facility) v)
      as [a|e1] eqn:H1; cbn; split.
    + done.
    + intros l v' -> [= <-].
      apply list_comprehension_returns in H1 as (r & -> & _ & Hsub). eauto.
    + intros e [= <-].
      eapply (list_comprehension_raises _
                (λ e, e = KeyError "facilities" ∨ e = TypeError));
        [apply swd_network_matches_raises|by right|eassumption].
    + done.
  - split; [done|]. intros l v' -> [= <-]. by eexists.
Qed.

(** X14. The two filters of [get_assets] compose: filtering a 200 body by
    [facility] and [asset_type] in one call gives what filtering by
    [asset_type] gives on the result of filtering by [facility], and fails
    as the first of the two fails. *)
Theorem get_assets_filters_compose self type facility asset_type v :
  result_of (mock 200 (Some v)) (get_assets self type facility asset_type)
  = match result_of (mock 200 (Some v)) (get_assets self type facility None) with
    | Returned filtered =>
        result_of (mock 200 (Some filtered))
          (get_assets self type None asset_type)
    | Raised e => Raised e
    end.
Proof.
  unfold get_assets, session_get, mock. cbn.
  destruct (truthy facility); cbn; [|done].
  destruct (list_comprehension (asset_matches "facility" facility) v)
    as [a|]; cbn; [|done].
  destruct (truthy asset_type); cbn; [|done].
  by destruct (list_comprehension (asset_matches "asset_type" asset_type) a).
Qed.

(** X15. The filters are idempotent: when [get_assets], or
    [get_swd_networks], returns a value on a 200 body, the same call on a
    200 response carrying that value returns it unchanged. *)
Theorem filters_are_idempotent self type facility asset_type v v' :
  (result_of (mock 200 (Some v)) (get_assets self type facility asset_type)
     = Returned v' →
   result_of (mock 200 (Some v')) (get_assets self type facility asset_type)
     = Returned v') ∧
  (result_of (mock 200 (Some v)) (get_swd_networks self facility) = Returned v' →
   result_of (mock 200 (Some v')) (get_swd_networks self facility) = Returned v').
Proof.
  split.
  - unfold get_assets, session_get, mock. cbn.
    destruct (truthy facility); cbn.
    + destruct (list_comprehension (asset_matches "facility" facility) v)
        as [a|] eqn:H1; cbn; [|done].
      apply list_comprehension_returns in H1 as (r1 & -> & Hall1 & _).
      destruct (truthy asset_type); cbn.
      * destruct (list_comprehension (asset_matches "asset_type" asset_type)
                    (PList r1)) as [b|] eqn:H2; cbn; [|done].
        apply list_comprehension_returns in H2 as (r2 & -> & Hall2 & Hsub).
        intros [= <-].
        rewrite list_comprehension_again; cbn.
        -- by rewrite list_comprehension_again.
        -- rewrite Forall_forall in Hall1 |- *. intros x Hx. apply Hall1.
           eapply elem_of_sublist; [exact Hx|]. by apply Hsub.
      * intros [= <-]. by rewrite list_comprehension_again.
    + destruct (truthy asset_type); cbn; [|done].
      destruct (list_comprehension (asset_matches "asset_type" asset_type) v)
        as [b|] eqn:H2; cbn; [|done].
      apply list_comprehension_returns in H2 as (r2 & -> & Hall2 & _).
      intros [= <-]. by rewrite list_comprehension_again.
  - unfold get_swd_networks, session_get, mock. cbn.
    destruct (truthy facility); cbn; [|done].
    destruct (list_comprehension (swd_network_matches facility) v)
      as [a|] eqn:H1; cbn; [|done].
    apply list_comprehension_returns in H1 as (r1 & -> & Hall1 & _).
    intros [= <-]. by rewrite list_comprehension_again.
Qed.

(** X16. The message of the failure of [get_assets] names [asset_type], not
    [type]: it ends with the [asset_type] passed, or with [None] when there
    is none, whatever [type] was asked for. *)
Theorem get_assets_failure_message srv self type facility asset_type resp :
  response_to srv (get_assets self type facility asset_type) = Some resp →
  status_code resp ≠ 200 →
  result_of srv (get_assets self type facility asset_type)
  = Raised (Client_Exception
              ("Unable to retrieve assets of type " +:+ default "None" asset_type)).
Proof.
  unfold get_assets, session_get. cbn. intros [= <-] Hs%Z.eqb_neq.
  rewrite Hs. cbn. by destruct asset_type.
Qed.

End Methods.

(** ** The properties on concrete responses *)

(** A 200 response carrying [{access_token: "T"}] yields a Client, with the
    trailing slash of the URL removed, whose requests carry
    [authorization: Bearer T]. *)
Example construction_succeeds_iff_witness :
  result_of (mock 200 (Some (PDict {[ "access_token" := PStr "T" ]})))
    (new_Client "https://api.example/" "id" "secret" Omitted)
  = Returned client_T.
Proof.
  apply (construction_succeeds_iff
           (mock 200 (Some (PDict {[ "access_token" := PStr "T" ]})))
           "https://api.example/" "id" "secret" Omitted _ eq_refl).
  split; [reflexivity|].
  exists {[ "access_token" := PStr "T" ]}, (PStr "T").
  split; [reflexivity|]. split; reflexivity.
Defined.

Example bearer_header :
  _get_headers show client_T = {[ "authorization" := "Bearer T" ]}.
Proof. reflexivity. Qed.

(** A 200 response without [access_token]: the status is 200 and
    construction raises [KeyError], so success is not decided by the status
    alone. *)
Lemma construction_fails_on_200_without_token :
  ¬ (∀ srv url client_id client_secret customer_id resp,
       response_to srv (new_Client url client_id client_secret customer_id)
         = Some resp →
       (∃ self,
          result_of srv (new_Client url client_id client_secret customer_id)
            = Returned self)
       ↔ status_code resp = 200).
Proof.
  intros H.
  destruct (H (mock 200 (Some (PDict ∅))) "https://api.example" "id" "secret"
              Omitted _ eq_refl) as [_ Hsucceeds].
  destruct (Hsucceeds eq_refl) as [self Hself].
  vm_compute in Hself. discriminate Hself.
Qed.

(** [get_assets(type='assets', facility='F1')] on
    [[{facility:'F1'},{facility:'F2'}]] returns the first record only. *)
Example get_assets_filters_witness :
  result_of (mock 200 (Some (PList (PDict <$> two_assets))))
    (get_assets show client_T "assets" (Some "F1") None)
  = Returned (PList [PDict {[ "facility" := PStr "F1" ]}]).
Proof.
  exact (proj1 (get_assets_filters show
                  (mock 200 (Some (PList (PDict <$> two_assets))))
                  client_T "assets" (Some "F1") None _ eq_refl eq_refl)
           two_assets eq_refl).
Defined.

(** With the empty string passed as [facility], [get_assets] does not keep
    the records whose [facility] is the empty string: it keeps them all. *)
Lemma get_assets_empty_facility_keeps_all :
  ¬ (∀ py_str srv self type (facility : string) resp records,
       response_to srv (get_assets py_str self type (Some facility) None)
         = Some resp →
       status_code resp = 200 →
       body resp = Some (PList (PDict <$> records)) →
       result_of srv (get_assets py_str self type (Some facility) None)
       = Returned (PList (PDict <$> filter (field_is "facility" facility) records))).
Proof.
  intros H.
  specialize (H show (mock 200 (Some (PList (PDict <$> two_assets))))
                client_T "assets" "" _ two_assets eq_refl eq_refl eq_refl).
  vm_compute in H. discriminate H.
Qed.

(** [get_swd_networks(facility='F1')] on
    [[{facilities:['F1','F2']},{facilities:['F3']}]] returns the first
    record only. *)
Example get_swd_networks_filters_witness :
  result_of (mock 200 (Some (PList (PDict <$> two_networks))))
    (get_swd_networks show client_T (Some "F1"))
  = Returned (PList [PDict {[ "facilities" := PList [PStr "F1"; PStr "F2"] ]}]).
Proof.
  refine (proj1 (get_swd_networks_filters show
                   (mock 200 (Some (PList (PDict <$> two_networks))))
                   client_T (Some "F1") _ eq_refl eq_refl)
            "F1" two_networks eq_refl _ eq_refl _).
  - discriminate.
  - repeat constructor; eexists; reflexivity.
Defined.

(** Two responses on which [get_swd_networks] does not return the records
    whose [facilities] contains the argument: a record without
    [facilities], and the empty string as argument. *)
Lemma get_swd_networks_does_not_filter :
  result_of (mock 200 (Some (PList [PDict ∅])))
    (get_swd_networks show client_T (Some "F1"))
  = Raised (KeyError "facilities") ∧
  result_of (mock 200 (Some (PList (PDict <$> two_networks))))
    (get_swd_networks show client_T (Some ""))
  = Returned (PList (PDict <$> two_networks)) ∧
  ¬ (∀ py_str srv self (facility : string) resp records,
       response_to srv (get_swd_networks py_str self (Some facility))
         = Some resp →
       status_code resp = 200 →
       body resp = Some (PList (PDict <$> records)) →
       result_of srv (get_swd_networks py_str self (Some facility))
       = Returned (PList (PDict <$> filter (serves facility) records))).
Proof.
  split; [reflexivity|]. split; [reflexivity|]. intros H.
  specialize (H show (mock 200 (Some (PList [PDict ∅]))) client_T "F1" _ [∅]
                eq_refl eq_refl eq_refl).
  vm_compute in H. discriminate H.
Qed.

(** A record without [facilities] after one that has it. *)
Example get_swd_networks_KeyError_witness :
  result_of
    (mock 200 (Some (PList [PDict {[ "facilities" := PList [PStr "F1"] ]};
                            PDict {[ "name" := PStr "north" ]}])))
    (get_swd_networks show client_T (Some "F1"))
  = Raised (KeyError "facilities").
Proof.
  refine (proj1 (get_swd_networks_KeyError show
                   (mock 200 (Some (PList
                      [PDict {[ "facilities" := PList [PStr "F1"] ]};
                       PDict {[ "name" := PStr "north" ]}])))
                   client_T (Some "F1") _
                   [ {[ "facilities" := PList [PStr "F1"] ]} ]
                   {[ "name" := PStr "north" ]} []
                   eq_refl eq_refl eq_refl eq_refl _ eq_refl)).
  repeat constructor. eexists. reflexivity.
Defined.

(** [get_datapoints] called with its required argument only sends [sort]
    and [limit]: omitted arguments with a key in the body. *)
Lemma omitted_sort_and_limit_are_sent :
  ∃ req,
    sent (mock 200 (Some (PList [])))
      (invoke show client_T
         (call_get_datapoints (PDict ∅) Omitted Omitted Omitted Omitted))
    = [req] ∧
    "sort" ∈ omitted_args
               (call_get_datapoints (PDict ∅) Omitted Omitted Omitted Omitted) ∧
    payload req !! "sort" = Some (PStr "desc") ∧
    payload req !! "limit" = Some (PInt 100) ∧
    payload req !! "sort" ≠ None.
Proof.
  eexists. split; [reflexivity|]. split; [|by vm_compute].
  apply list_elem_of_In. vm_compute. tauto.
Qed.

(** Passing [limit=0] is not the same as omitting [limit]: the one request
    has no [limit], the other has [limit=100]. *)
Lemma limit_zero_differs_from_omitted :
  sent (mock 200 (Some (PList [])))
    (invoke show client_T
       (call_get_datapoints (PDict ∅) Omitted Omitted Omitted (Passed 0)))
  ≠ sent (mock 200 (Some (PList [])))
      (invoke show client_T
         (call_get_datapoints (PDict ∅) Omitted Omitted Omitted Omitted)).
Proof.
  intros H. apply (f_equal (fmap (λ req, payload req !! "limit"))) in H.
  vm_compute in H. discriminate H.
Qed.

(** [post_datapoints] against a mock server: 202 returns, 200 and 500
    raise. *)
Example post_datapoints_202_200_500 :
  result_of (mock 202 None) (post_datapoints show client_T "a1" (PList []))
    = Returned PNone ∧
  result_of (mock 200 (Some (PDict ∅))) (post_datapoints show client_T "a1" (PList []))
    = Raised (Exception "Unable to post datapoints") ∧
  result_of (mock 500 None) (post_datapoints show client_T "a1" (PList []))
    = Raised JSONDecodeError.
Proof. repeat split. Qed.

(** [get_truck_tickets()] sends none of its four keys. *)
Example omitted_arguments_witness :
  ∃ req,
    sent (mock 200 (Some (PList [])))
      (invoke show client_T
         (call_get_truck_tickets Omitted Omitted Omitted Omitted))
    = [req] ∧
    payload req !! "facility" = None ∧
    payload req !! "start_ts" = None.
Proof.
  destruct (omitted_arguments show (mock 200 (Some (PList []))) client_T
              (call_get_truck_tickets Omitted Omitted Omitted Omitted))
    as (req & Hsent & Hnames).
  exists req. split; [exact Hsent|]. split.
  - apply (Hnames "facility"); [|discriminate|discriminate].
    apply list_elem_of_In. cbn. tauto.
  - apply (Hnames "start_ts"); [|discriminate|discriminate].
    apply list_elem_of_In. cbn. tauto.
Defined.

(** [get_asset_datapoints('a1', datatypes=[], sort='', limit=0)] sends none
    of the three keys. *)
Example falsy_arguments_witness :
  ∃ req,
    sent (mock 200 (Some (PList [])))
      (invoke show client_T
         (call_get_asset_datapoints "a1" (Passed []) Omitted Omitted
            (Passed "") (Passed 0)))
    = [req] ∧
    payload req !! "datatypes" = None ∧
    payload req !! "sort" = None ∧
    payload req !! "limit" = None.
Proof.
  destruct (falsy_arguments show (mock 200 (Some (PList []))) client_T
              (call_get_asset_datapoints "a1" (Passed []) Omitted Omitted
                 (Passed "") (Passed 0)))
    as ((req & Hsent & Hnames) & _).
  exists req. split; [exact Hsent|].
  repeat split; apply Hnames; apply list_elem_of_In; cbn; tauto.
Defined.

(** Constructing with and without the trailing slash is one and the same
    program; two Clients so constructed, here with different tokens, send
    [get_alarms] to the same URL. *)
Example trailing_slash_is_stripped_witness :
  new_Client "https://api.example/" "id" "secret" Omitted
  = new_Client "https://api.example" "id" "secret" Omitted ∧
  req_url <$> sent (mock 200 None) (invoke show client_T call_get_alarms)
  = req_url <$> sent (mock 200 None)
      (invoke show {| url := "https://api.example"; customer_id := None;
                      token := PStr "U" |} call_get_alarms).
Proof.
  split.
  - exact (proj1 (trailing_slash_is_stripped show "https://api.example")
             "id" "secret" Omitted).
  - exact (proj2 (proj2 (trailing_slash_is_stripped show "https://api.example")
             (mock 200 (Some (PDict {[ "access_token" := PStr "T" ]})))
             (mock 200 (Some (PDict {[ "access_token" := PStr "U" ]})))
             "id" "secret" Omitted "id" "secret" Omitted
             client_T _ eq_refl eq_refl) (mock 200 None) call_get_alarms).
Defined.

Example rstrip_slashes :
  rstrip "/" "https://api.example///" = "https://api.example" ∧
  rstrip "/" "https://api.example/v1" = "https://api.example/v1" ∧
  rstrip "/" "//" = "".
Proof. repeat split. Qed.

(** ** The further properties on concrete responses *)

(** [get_assets(facility='')] does not filter: the body comes back as it
    is, here a JSON object. *)
Example reads_pass_body_through_witness :
  result_of (mock 200 (Some (PDict {[ "count" := PInt 2 ]})))
    (invoke show client_T (call_get_assets Omitted (Passed (Some "")) Omitted))
  = Returned (PDict {[ "count" := PInt 2 ]}).
Proof.
  exact (reads_pass_body_through show
           (mock 200 (Some (PDict {[ "count" := PInt 2 ]}))) client_T
           (call_get_assets Omitted (Passed (Some "")) Omitted) _ _
           eq_refl eq_refl eq_refl eq_refl eq_refl).
Defined.

(** A 404 without a JSON body on [get_facility]. *)
Example reads_fail_with_Client_Exception_witness :
  ∃ msg,
    result_of (mock 404 None) (invoke show client_T (call_get_facility "f1"))
    = Raised (Client_Exception msg).
Proof.
  apply (reads_fail_with_Client_Exception show (mock 404 None) client_T
           (call_get_facility "f1") _ eq_refl); [discriminate|reflexivity|].
  discriminate.
Defined.

(** A 502 with an HTML body on [get_datapoints]. *)
Example get_datapoints_failure_needs_json_witness :
  result_of (mock 502 None)
    (get_datapoints show client_T (PDict ∅) None None "desc" 100)
  = Raised JSONDecodeError.
Proof.
  apply (get_datapoints_failure_needs_json show (mock 502 None) client_T
           (PDict ∅) None None "desc" 100 _ eq_refl); [discriminate|reflexivity].
Defined.

Example reads_raise_on_non_json_body_witness :
  result_of (mock 200 None) (invoke show client_T call_get_alarms)
  = Raised JSONDecodeError.
Proof.
  exact (reads_raise_on_non_json_body show (mock 200 None) client_T
           call_get_alarms _ eq_refl eq_refl eq_refl eq_refl).
Defined.

(** A base URL given with two trailing slashes. *)
Example constructed_url_is_normalized_witness :
  ∃ tail,
    "https://api.example//" = url client_T +:+ tail ∧
    only_chars "/" tail = true.
Proof.
  exact (proj1 (constructed_url_is_normalized
                  (mock 200 (Some (PDict {[ "access_token" := PStr "T" ]})))
                  "https://api.example//" "id" "secret" Omitted client_T
                  eq_refl)).
Defined.

(** A 200 response carrying a JSON list instead of an object. *)
Example construction_failures_on_200_witness :
  result_of (mock 200 (Some (PList [])))
    (new_Client "https://api.example" "id" "secret" Omitted)
  = Raised TypeError.
Proof.
  apply (proj1 (proj2 (construction_failures_on_200
                         (mock 200 (Some (PList [])))
                         "https://api.example" "id" "secret" Omitted _
                         eq_refl eq_refl)) (PList []) eq_refl).
  discriminate.
Defined.

(** What [get_assets(facility='F1')] returns on the two records is a
    sublist of them. *)
Example get_assets_outcomes_witness :
  ∃ r, PList [PDict {[ "facility" := PStr "F1" ]}] = PList r ∧
       r `sublist_of` (PDict <$> two_assets).
Proof.
  exact (proj2 (get_assets_outcomes show
                  (mock 200 (Some (PList (PDict <$> two_assets))))
                  client_T "assets" (Some "F1") None _ _
                  eq_refl eq_refl eq_refl)
           (PDict <$> two_assets) _ eq_refl eq_refl).
Defined.

Example get_swd_networks_outcomes_witness :
  ∃ r, PList [PDict {[ "facilities" := PList [PStr "F3"] ]}] = PList r ∧
       r `sublist_of` (PDict <$> two_networks).
Proof.
  exact (proj2 (get_swd_networks_outcomes show
                  (mock 200 (Some (PList (PDict <$> two_networks))))
                  client_T (Some "F3") _ _ eq_refl eq_refl eq_refl)
           (PDict <$> two_networks) _ eq_refl eq_refl).
Defined.

(** [get_assets('wells')] failing speaks of type [None]. *)
Example get_assets_failure_message_witness :
  result_of (mock 500 None) (get_assets show client_T "wells" None None)
  = Raised (Client_Exception "Unable to retrieve assets of type None").
Proof.
  apply (get_assets_failure_message show (mock 500 None) client_T "wells"
           None None _ eq_refl).
  discriminate.
Defined.
